(** * FEMA / ARC shelter feed: the normaliser of [src/lib/fema-shelters.ts]

    A shallow embedding of [fetchFEMAShelters] and of the three array
    callbacks it is built from, followed by the properties of the
    normalisation pipeline. *)

From Stdlib Require Import Floats.PrimFloat.
From stdpp Require Import gmap strings list pretty.

Local Open Scope string_scope.
Local Open Scope nat_scope.
Local Open Scope list_scope.

Set Warnings "-register-all".

(** ** JavaScript values as [res.json()] produces them *)

(** A parsed JSON document. Numbers are IEEE doubles; an object is a
    finite map from property names to values (the parser keeps the last
    of several equal keys, and no code below depends on key order). *)
Inductive json : Type :=
| JNull
| JBool (b : bool)
| JNumber (n : float)
| JString (s : string)
| JArray (items : list json)
| JObject (props : gmap string json).

(** What a property read gives: [None] is JavaScript's [undefined]. *)
Definition value : Type := option json.

Definition undefined : value := None.

(** ** Exceptions and rejected promises *)

Inductive exn : Type :=
| Error (message : string)       (* [new Error(message)], thrown by the function itself *)
| TypeError (property : string)  (* reading [property] of null or undefined *)
| Rejection (reason : string).   (* [fetch] or [res.json()] rejected *)

Inductive result (A : Type) : Type :=
| Ok (a : A)
| Throw (e : exn).

Arguments Ok {A} a.
Arguments Throw {A} e.


(** ** Operators of the language, as the source uses them *)

(** [v.k]. Reading a property of [null] or [undefined] throws. On an
    object the read is a lookup of the parsed own properties; the names
    read by this program ([features], [geometry], [type], [coordinates],
    [properties] and the shelter fields) are not defined on the
    prototypes of arrays, strings, numbers and booleans, so there the
    read gives [undefined]. *)
Definition get (v : value) (k : string) : result value :=
  match v with
  | None | Some JNull => Throw (TypeError k)
  | Some (JObject props) => Ok (props !! k)
  | Some _ => Ok undefined
  end.

(** [v?.k] *)
Definition get_opt (v : value) (k : string) : result value :=
  match v with
  | None | Some JNull => Ok undefined
  | Some _ => get v k
  end.

(** [v ?? d] *)
Definition coalesce (v : value) (d : json) : value :=
  match v with
  | None | Some JNull => Some d
  | Some _ => v
  end.

(** [v === s] for a string literal [s] *)
Definition strict_eq_string (v : value) (s : string) : bool :=
  match v with
  | Some (JString t) => String.eqb t s
  | _ => false
  end.

(** [typeof v === 'number'] *)
Definition typeof_number (v : value) : bool :=
  match v with
  | Some (JNumber _) => true
  | _ => false
  end.

(** [Array.isArray(v)] *)
Definition isArray (v : value) : bool :=
  match v with
  | Some (JArray _) => true
  | _ => false
  end.

(** [v.length] and [v[i]] of an array; both are only reached behind
    [Array.isArray]. *)
Definition array_length (v : value) : nat :=
  match v with
  | Some (JArray items) => length items
  | _ => 0
  end.

Definition index (v : value) (i : nat) : value :=
  match v with
  | Some (JArray items) => items !! i
  | _ => undefined
  end.

(** Truthiness, the test behind [!v]. *)
Definition truthy (v : value) : bool :=
  match v with
  | None | Some JNull => false
  | Some (JBool b) => b
  | Some (JNumber n) => negb (PrimFloat.eqb n 0%float || PrimFloat.is_nan n)
  | Some (JString s) => negb (String.eqb s "")
  | Some (JArray _) | Some (JObject _) => true
  end.

(** ** The wall clock and the monad of the function body *)

(** The readings that successive [new Date().toISOString()] calls will
    give: reading takes the head and leaves the rest. *)
Definition clock : Type := nat → string.

Definition M (A : Type) : Type := clock → result (A * clock).

Definition ret {A} (a : A) : M A := λ c, Ok (a, c).

Definition throw {A} (e : exn) : M A := λ _, Throw e.

Definition bind {A B} (m : M A) (k : A → M B) : M B :=
  λ c, match m c with
       | Ok (a, c') => k a c'
       | Throw e => Throw e
       end.

Definition lift {A} (r : result A) : M A :=
  λ c, match r with
       | Ok a => Ok (a, c)
       | Throw e => Throw e
       end.

Definition now : M string := λ c, Ok (c 0, λ n, c (S n)).

Notation "'let!' x ':=' m 'in' k" := (bind m (λ x, k))
  (at level 10, x name, m at level 100, k at level 200).

(** What the caller of the async function observes: the resolved value
    or the rejection. *)
Definition settle {A} (m : M A) (c : clock) : result A :=
  match m c with
  | Ok (a, _) => Ok a
  | Throw e => Throw e
  end.

(** [Array.prototype.filter] and [Array.prototype.map] over a parsed
    array (no holes): the callback runs on the elements in index order
    and an exception of the callback ends the traversal. *)
Fixpoint array_filter (cb : json → result bool) (l : list json) : result (list json) :=
  match l with
  | [] => Ok []
  | f :: rest =>
      match cb f with
      | Throw e => Throw e
      | Ok keep =>
          match array_filter cb rest with
          | Throw e => Throw e
          | Ok kept => Ok (if keep then f :: kept else kept)
          end
      end
  end.

Fixpoint array_map {B} (cb : json → M B) (l : list json) : M (list B) :=
  match l with
  | [] => ret []
  | f :: rest =>
      let! r := cb f in
      let! rs := array_map cb rest in
      ret (r :: rs)
  end.

(** ** The program *)

Record Shelter : Type := {
  shelter_id : value;
  name : value;
  address : value;
  city : value;
  state : value;
  zip : value;
  status : string;
  latitude : value;
  longitude : value;
  total_population : value;
  ada_compliant : value;
  wheelchair_accessible : value;
  pet_accommodations : value;
  source : string;
  last_updated : string
}.

(** The parts of the [fetch] response the function looks at.
    [json_body] is what [await res.json()] gives: the parsed body, or the
    rejection when the body is not JSON. *)
Record Response : Type := {
  ok : bool;
  statusText : string;
  json_body : result json
}.

(** [(f) => f.geometry?.type === 'Point'] *)
Definition filter_cb (f : json) : result bool :=
  match get (Some f) "geometry" with
  | Throw e => Throw e
  | Ok geometry =>
      match get_opt geometry "type" with
      | Throw e => Throw e
      | Ok type => Ok (strict_eq_string type "Point")
      end
  end.

(** The [.map] callback: a record, or [None] for the [null] it returns
    on a coordinate value that is not a two-element array. *)
Definition map_cb (f : json) : M (option Shelter) :=
  let! geometry := lift (get (Some f) "geometry") in
  let! coords := lift (get geometry "coordinates") in
  let! properties := lift (get (Some f) "properties") in
  let p := coalesce properties (JObject ∅) in
  if negb (isArray coords) || negb (array_length coords =? 2)%nat then ret None
  else
    let longitude := index coords 0 in
    let latitude := index coords 1 in
    let! p_shelter_id := lift (get p "shelter_id") in
    let! p_shelter_name := lift (get p "shelter_name") in
    let! p_address := lift (get p "address") in
    let! p_city := lift (get p "city") in
    let! p_state := lift (get p "state") in
    let! p_zip := lift (get p "zip") in
    let! p_shelter_status := lift (get p "shelter_status") in
    let! p_total_population := lift (get p "total_population") in
    let! p_ada_compliant := lift (get p "ada_compliant") in
    let! p_wheelchair_accessible := lift (get p "wheelchair_accessible") in
    let! p_pet_accommodations_code := lift (get p "pet_accommodations_code") in
    let! stamp := now in
    ret (Some {|
      shelter_id := p_shelter_id;
      name := coalesce p_shelter_name (JString "Unknown Shelter");
      address := coalesce p_address (JString "");
      city := coalesce p_city (JString "");
      state := coalesce p_state (JString "");
      zip := coalesce p_zip (JString "");
      status :=
        if strict_eq_string p_shelter_status "OPEN" then "OPEN"
        else if strict_eq_string p_shelter_status "CLOSED" then "CLOSED"
        else "UNKNOWN";
      latitude := latitude;
      longitude := longitude;
      total_population :=
        if typeof_number p_total_population then p_total_population
        else Some JNull;
      ada_compliant := coalesce p_ada_compliant JNull;
      wheelchair_accessible := coalesce p_wheelchair_accessible JNull;
      pet_accommodations := coalesce p_pet_accommodations_code JNull;
      source := "FEMA / ARC (National Shelter System)";
      last_updated := stamp
    |}).

(** [Boolean], the callback of the last [.filter], on [Shelter | null]:
    an object is truthy, [null] is not. *)
Definition Boolean (r : option Shelter) : bool :=
  match r with
  | Some _ => true
  | None => false
  end.

(** [as Shelter[]]: the type-level cast of the filtered array. *)
Definition as_Shelters (l : list (option Shelter)) : list Shelter := omap id l.

(** The chain of the return statement,
    [.filter(f => ...).map(f => ...).filter(Boolean) as Shelter[]],
    on the elements of [geojson.features]. *)
Definition normalize (items : list json) : M (list Shelter) :=
  let! points := lift (array_filter filter_cb items) in
  let! mapped := array_map map_cb points in
  ret (as_Shelters (List.filter Boolean mapped)).

(** [fetchFEMAShelters], given what [await fetch(ARCGIS_SHELTERS_URL)]
    settles to. *)
Definition fetchFEMAShelters (fetched : result Response) : M (list Shelter) :=
  let! res := lift fetched in
  if negb (ok res) then
    throw (Error ("Failed to fetch FEMA shelters: " ++ statusText res))
  else
    let! geojson := lift (json_body res) in
    let! features := lift (get_opt (Some geojson) "features") in
    let! not_array :=
      (if negb (truthy features) then ret true
       else let! features' := lift (get (Some geojson) "features") in
            ret (negb (isArray features'))) in
    if (not_array : bool) then throw (Error "Invalid GeoJSON response from ArcGIS")
    else
      let! features := lift (get (Some geojson) "features") in
      match features with
      | Some (JArray items) => normalize items
      | _ => throw (TypeError "filter")
      end.

(** ** The example runner *)

(** What the runner leaves on the console: the arguments of its
    [console.log] calls, a text or an array of records, and of
    [console.error]. *)
Inductive console_entry : Type :=
| log_text (text : string)
| log_records (records : list Shelter)
| error_entry (e : exn).

(** [shelters.slice(0, 3)] *)
Definition slice_0_3 (shelters : list Shelter) : list Shelter := take 3 shelters.

(** The block at the end of the file,
    [if (require.main === module) { fetchFEMAShelters().then(...).catch(console.error) }]:
    [is_main] is the test of the guard; the [then] handler prints the
    count, in decimal, and the first three records; a rejection goes to
    [console.error]. *)
Definition example_runner (is_main : bool) (fetched : result Response)
    (c : clock) : list console_entry :=
  if is_main then
    match settle (fetchFEMAShelters fetched) c with
    | Ok shelters =>
        [log_text ("Fetched " ++ pretty (length shelters) ++ " shelters");
         log_records (slice_0_3 shelters)]
    | Throw e => [error_entry e]
    end
  else [].

(** ** Vocabulary of the statements *)

(** The parts of a payload and of a feature that the properties below
    talk about, read off a parsed document without the exceptions of the
    property reads; the lemmas of the next section tie them to the reads
    the program performs. *)

Definition features_of (geojson : json) : option (list json) :=
  match geojson with
  | JObject props =>
      match props !! "features" with
      | Some (JArray items) => Some items
      | _ => None
      end
  | _ => None
  end.

Definition member (v : value) (k : string) : value :=
  match v with
  | Some (JObject props) => props !! k
  | _ => undefined
  end.

Definition geometry_type (f : json) : value :=
  member (member (Some f) "geometry") "type".

Definition coordinates_of (f : json) : value :=
  member (member (Some f) "geometry") "coordinates".

Definition property (f : json) (k : string) : value :=
  member (member (Some f) "properties") k.

(** A coordinate value that passes the guard of the [.map] callback. *)
Definition is_pair (coords : value) : Prop :=
  ∃ lon lat, coords = Some (JArray [lon; lat]).

(** [s] is a record that the two callbacks make of feature [f]: the
    first filter keeps [f] and the map callback returns [s] for it at
    some reading of the clock. *)
Definition built_from (f : json) (s : Shelter) : Prop :=
  filter_cb f = Ok true ∧ ∃ c c', map_cb f c = Ok (Some s, c').

Definition emits (f : json) : Prop := ∃ s, built_from f s.

(** Records that differ at most in their time stamp. *)
Definition same_but_stamp (s1 s2 : Shelter) : Prop :=
  shelter_id s1 = shelter_id s2 ∧ name s1 = name s2 ∧
  address s1 = address s2 ∧ city s1 = city s2 ∧ state s1 = state s2 ∧
  zip s1 = zip s2 ∧ status s1 = status s2 ∧
  latitude s1 = latitude s2 ∧ longitude s1 = longitude s2 ∧
  total_population s1 = total_population s2 ∧
  ada_compliant s1 = ada_compliant s2 ∧
  wheelchair_accessible s1 = wheelchair_accessible s2 ∧
  pet_accommodations s1 = pet_accommodations s2 ∧
  source s1 = source s2.

(** The output lines up with the input: every feature is passed over or
    answers for the next record, in input order. *)
Inductive lined_up : list json → list Shelter → Prop :=
| lined_up_nil : lined_up [] []
| lined_up_skip f fs out :
    ¬ emits f → lined_up fs out → lined_up (f :: fs) out
| lined_up_keep f fs s out :
    built_from f s → lined_up fs out → lined_up (f :: fs) (s :: out).

(** A response with a successful status whose body parses to [geojson]. *)
Definition delivers (res : Response) (geojson : json) : Prop :=
  ok res = true ∧ json_body res = Ok geojson.

(** The property names that the map callback reads off the properties
    object. *)
Definition read_names : list string :=
  ["shelter_id"; "shelter_name"; "address"; "city"; "state"; "zip";
   "shelter_status"; "total_population"; "ada_compliant";
   "wheelchair_accessible"; "pet_accommodations_code"].

(** The features that pass both guards: geometry of type "Point" and a
    coordinates array of two members. *)
Definition accepted (f : json) : bool :=
  strict_eq_string (geometry_type f) "Point" &&
  (isArray (coordinates_of f) && (array_length (coordinates_of f) =? 2)).

(** [r] is [v], or [d] when [v] is missing or [null]. *)
Definition or_default (v : value) (d : json) (r : value) : Prop :=
  (v = None ∨ v = Some JNull → r = Some d) ∧
  (∀ j, v = Some j → j ≠ JNull → r = Some j).

(** The ways in which a call can reject, in the order in which the
    function meets them. *)
Inductive rejects : result Response → exn → Prop :=
| rejects_fetch e : rejects (Throw e) e
| rejects_status res :
    ok res = false →
    rejects (Ok res) (Error ("Failed to fetch FEMA shelters: " ++ statusText res))
| rejects_body res e :
    ok res = true → json_body res = Throw e → rejects (Ok res) e
| rejects_shape res geojson :
    delivers res geojson → features_of geojson = None →
    rejects (Ok res) (Error "Invalid GeoJSON response from ArcGIS")
| rejects_null res geojson fs :
    delivers res geojson → features_of geojson = Some fs → JNull ∈ fs →
    rejects (Ok res) (TypeError "geometry").

(** The test [f === null], to check by computation that an array has
    no [null] element. *)
Definition is_null (f : json) : bool :=
  match f with
  | JNull => true
  | _ => false
  end.

(** ** A sample feed *)

Module Sample.

Definition stamps : clock :=
  λ n, match n with
       | 0 => "2026-01-01T00:00:00.000Z"
       | _ => "2026-01-01T00:00:00.001Z"
       end.

Definition later : clock := λ _, "2026-06-30T12:00:00.000Z".

Definition point (coords : json) (properties : list (string * json)) : json :=
  JObject (<["geometry" := JObject (<["type" := JString "Point"]>
                                    {["coordinates" := coords]})]>
           {["properties" := JObject (list_to_map properties)]}).

(** An open shelter in Miami whose property bag carries latitude and
    longitude fields that disagree with the geometry. *)
Definition miami : json :=
  point (JArray [JNumber (-80.25)%float; JNumber 25.75%float])
        [("shelter_id", JNumber 1%float); ("shelter_name", JString "Test");
         ("shelter_status", JString "OPEN");
         ("latitude", JNull); ("longitude", JNumber 0%float)].

(** A shelter with a lower-case status and a population sent as text. *)
Definition tampa : json :=
  point (JArray [JNumber (-82.5)%float; JNumber 27.75%float])
        [("shelter_id", JNumber 2%float); ("shelter_status", JString "open");
         ("total_population", JString "120")].

Definition polygon : json :=
  JObject {["geometry" := JObject (<["type" := JString "Polygon"]>
                                   {["coordinates" := JArray []]})]}.

Definition no_geometry : json :=
  JObject {["properties" := JObject {["shelter_id" := JNumber 3%float]}]}.

(** Point geometry with three coordinates, and with two that are not
    numbers. *)
Definition three_coords : json :=
  point (JArray [JNumber 1%float; JNumber 2%float; JNumber 3%float]) [].

Definition null_coords : json := point (JArray [JNull; JNull]) [].

Definition payload (features : list json) : json :=
  JObject {["features" := JArray features]}.

Definition response (geojson : json) : Response :=
  {| ok := true; statusText := "OK"; json_body := Ok geojson |}.

(** A shelter whose name is the empty string and whose population is
    zero, with an accessibility code. *)
Definition nameless : json :=
  point (JArray [JNumber (-81.5)%float; JNumber 28.5%float])
        [("shelter_id", JNumber 4%float); ("shelter_name", JString "");
         ("address", JNull); ("total_population", JNumber 0%float);
         ("ada_compliant", JString "YES");
         ("pet_accommodations_code", JString "SERVICE ANIMALS ONLY")].

(** Point geometry without a properties object. *)
Definition bare : json :=
  JObject {["geometry" :=
              JObject (<["type" := JString "Point"]>
                       {["coordinates" :=
                           JArray [JNumber (-90)%float; JNumber 30%float]]})]}.

(** [miami] with a county and an update time among its properties, and
    another latitude field. *)
Definition miami_annotated : json :=
  point (JArray [JNumber (-80.25)%float; JNumber 25.75%float])
        [("shelter_id", JNumber 1%float); ("shelter_name", JString "Test");
         ("shelter_status", JString "OPEN");
         ("latitude", JNumber 99%float); ("county", JString "Miami-Dade");
         ("last_updated", JString "2020-02-02")].

Definition unparsable : Response :=
  {| ok := true; statusText := "OK";
     json_body := Throw (Rejection "Unexpected token < in JSON") |}.

Definition unavailable : Response :=
  {| ok := false; statusText := "Service Unavailable";
     json_body := Throw (Rejection "Unexpected token < in JSON") |}.

End Sample.

(** ** The callbacks *)

Section Callbacks.

Implicit Types (f : json) (c : clock) (s : Shelter).

Lemma null_or_not f : {f = JNull} + {f ≠ JNull}.
Proof. destruct f; (by left) || (by right). Qed.

Lemma get_total v k : v ≠ None → v ≠ Some JNull → get v k = Ok (member v k).
Proof. destruct v as [[]|]; naive_solver. Qed.

Lemma get_opt_member v k : get_opt v k = Ok (member v k).
Proof. by destruct v as [[]|]. Qed.

Lemma get_coalesce_empty v k :
  get (coalesce v (JObject ∅)) k = Ok (member v k).
Proof. by destruct v as [[]|]. Qed.

Lemma filter_cb_null : filter_cb JNull = Throw (TypeError "geometry").
Proof. reflexivity. Qed.

Lemma filter_cb_total f :
  f ≠ JNull → filter_cb f = Ok (strict_eq_string (geometry_type f) "Point").
Proof.
  intros Hf. unfold filter_cb, geometry_type.
  rewrite get_total by congruence.
  by rewrite get_opt_member.
Qed.

Lemma filter_cb_throw f e :
  filter_cb f = Throw e ↔ f = JNull ∧ e = TypeError "geometry".
Proof.
  split.
  - destruct (null_or_not f) as [->|Hf]; [rewrite filter_cb_null; naive_solver|].
    by rewrite filter_cb_total.
  - intros [-> ->]. apply filter_cb_null.
Qed.

Lemma strict_eq_string_true v t :
  strict_eq_string v t = true ↔ v = Some (JString t).
Proof.
  destruct v as [[]|]; simpl; try naive_solver.
  rewrite String.eqb_eq. naive_solver.
Qed.

Lemma filter_cb_keep f :
  filter_cb f = Ok true ↔ geometry_type f = Some (JString "Point").
Proof.
  destruct (null_or_not f) as [->|Hf]; [by rewrite filter_cb_null|].
  rewrite filter_cb_total, <- strict_eq_string_true by done.
  split; congruence.
Qed.

Lemma filter_cb_drop f :
  filter_cb f = Ok false ↔ f ≠ JNull ∧ geometry_type f ≠ Some (JString "Point").
Proof.
  destruct (null_or_not f) as [->|Hf].
  - rewrite filter_cb_null. split; [discriminate|]. by intros [? _].
  - rewrite filter_cb_total, <- strict_eq_string_true by done.
    destruct (strict_eq_string _ _); split.
    + discriminate.
    + by intros [_ ?].
    + intros _. split; [done|discriminate].
    + done.
Qed.

(** A feature that the first filter keeps is an object with an object
    for its geometry. *)
Lemma point_feature f :
  geometry_type f = Some (JString "Point") →
  ∃ props gp, f = JObject props ∧ props !! "geometry" = Some (JObject gp) ∧
              gp !! "type" = Some (JString "Point").
Proof.
  unfold geometry_type. destruct f as [| | | | |props]; try done. simpl.
  destruct (props !! "geometry") as [[| | | | |gp]|] eqn:Hg; try done.
  simpl. eauto.
Qed.

Lemma map_cb_reads f c :
  geometry_type f = Some (JString "Point") →
  map_cb f c =
    (let coords := coordinates_of f in
     if negb (isArray coords) || negb (array_length coords =? 2)%nat then ret None
     else
       let! stamp := now in
       ret (Some {|
         shelter_id := property f "shelter_id";
         name := coalesce (property f "shelter_name") (JString "Unknown Shelter");
         address := coalesce (property f "address") (JString "");
         city := coalesce (property f "city") (JString "");
         state := coalesce (property f "state") (JString "");
         zip := coalesce (property f "zip") (JString "");
         status :=
           if strict_eq_string (property f "shelter_status") "OPEN" then "OPEN"
           else if strict_eq_string (property f "shelter_status") "CLOSED" then "CLOSED"
           else "UNKNOWN";
         latitude := index coords 1;
         longitude := index coords 0;
         total_population :=
           if typeof_number (property f "total_population")
           then property f "total_population" else Some JNull;
         ada_compliant := coalesce (property f "ada_compliant") JNull;
         wheelchair_accessible := coalesce (property f "wheelchair_accessible") JNull;
         pet_accommodations := coalesce (property f "pet_accommodations_code") JNull;
         source := "FEMA / ARC (National Shelter System)";
         last_updated := stamp
       |})) c.
Proof.
  intros (props & gp & -> & Hg & _)%point_feature.
  unfold map_cb, coordinates_of, property, bind, lift.
  cbn [get member]. rewrite !Hg. cbn [get member].
  destruct (_ || _); [done|].
  by rewrite !get_coalesce_empty.
Qed.

Lemma pair_guard coords :
  negb (isArray coords) || negb (array_length coords =? 2)%nat = false ↔
  is_pair coords.
Proof.
  unfold is_pair. split.
  - destruct coords as [[| | | |items|]|]; try done. simpl.
    destruct items as [|lon [|lat [|]]]; try done. eauto.
  - by intros (lon & lat & ->).
Qed.

Lemma map_cb_none f c :
  geometry_type f = Some (JString "Point") → ¬ is_pair (coordinates_of f) →
  map_cb f c = Ok (None, c).
Proof.
  intros Hp Hc. rewrite map_cb_reads by done. simpl.
  rewrite <- pair_guard in Hc. by destruct (_ || _).
Qed.

Lemma map_cb_some f c :
  geometry_type f = Some (JString "Point") → is_pair (coordinates_of f) →
  ∃ s, map_cb f c = Ok (Some s, λ n, c (S n)) ∧
       last_updated s = c 0 ∧
       latitude s = index (coordinates_of f) 1 ∧
       longitude s = index (coordinates_of f) 0 ∧
       status s =
         (if strict_eq_string (property f "shelter_status") "OPEN" then "OPEN"
          else if strict_eq_string (property f "shelter_status") "CLOSED" then "CLOSED"
          else "UNKNOWN") ∧
       total_population s =
         (if typeof_number (property f "total_population")
          then property f "total_population" else Some JNull) ∧
       ∀ c2 s2 c2', map_cb f c2 = Ok (Some s2, c2') → same_but_stamp s s2.
Proof.
  intros Hp Hc. rewrite map_cb_reads by done. simpl.
  apply pair_guard in Hc as Hg. rewrite Hg.
  eexists. split; [reflexivity|]. do 5 (split; [reflexivity|]).
  intros c2 s2 c2'. rewrite map_cb_reads by done. simpl. rewrite Hg.
  unfold bind, now, ret. intros [= <- _]. by repeat split.
Qed.

(** Whether a feature answers for a record does not depend on the
    clock. *)
Lemma emits_iff f :
  emits f ↔ geometry_type f = Some (JString "Point") ∧ is_pair (coordinates_of f).
Proof.
  split.
  - intros (s & Hk%filter_cb_keep & c & c' & Hm). split; [done|].
    apply pair_guard. rewrite map_cb_reads in Hm by done. simpl in Hm.
    by destruct (_ || _).
  - intros [Hp Hc]. destruct (map_cb_some f (λ _, "") Hp Hc) as (s & Hs & _).
    exists s. split; [by apply filter_cb_keep|eauto].
Qed.

Lemma built_from_fields f s :
  built_from f s →
  geometry_type f = Some (JString "Point") ∧ is_pair (coordinates_of f) ∧
  latitude s = index (coordinates_of f) 1 ∧
  longitude s = index (coordinates_of f) 0 ∧
  status s =
    (if strict_eq_string (property f "shelter_status") "OPEN" then "OPEN"
     else if strict_eq_string (property f "shelter_status") "CLOSED" then "CLOSED"
     else "UNKNOWN") ∧
  total_population s =
    (if typeof_number (property f "total_population")
     then property f "total_population" else Some JNull).
Proof.
  intros Hb. assert (He : emits f) by (by exists s).
  apply emits_iff in He as [Hp Hc]. destruct Hb as (_ & c & c' & Hm).
  destruct (map_cb_some f c Hp Hc) as (s' & Hs & _ & ? & ? & ? & ? & _).
  rewrite Hm in Hs. by injection Hs as <-.
Qed.

End Callbacks.

(** ** The chain of array passes *)

Section Chain.

Implicit Types (f : json) (fs : list json) (c : clock) (s : Shelter).

Lemma has_null fs : {JNull ∈ fs} + {JNull ∉ fs}.
Proof.
  induction fs as [|f fs [IH|IH]].
  - right. apply not_elem_of_nil.
  - left. by apply elem_of_cons; right.
  - destruct (null_or_not f) as [->|Hf].
    + left. apply elem_of_cons. by left.
    + right. apply not_elem_of_cons. split; [congruence|done].
Qed.

(** The first pass reads [f.geometry] of every element before any
    record is built, so one [null] element rejects the call. *)
Lemma array_filter_null fs :
  JNull ∈ fs → array_filter filter_cb fs = Throw (TypeError "geometry").
Proof.
  induction fs as [|f fs IH]; [by intros ?%elem_of_nil|].
  intros [<-|Hin]%elem_of_cons; [done|]. simpl. rewrite (IH Hin).
  destruct (filter_cb f) as [b|e] eqn:Hf; [done|].
  by apply filter_cb_throw in Hf as [_ ->].
Qed.

Lemma array_filter_ok fs :
  JNull ∉ fs → ∃ points, array_filter filter_cb fs = Ok points.
Proof.
  induction fs as [|f fs IH]; [by eexists|].
  intros [Hf Hfs]%not_elem_of_cons. simpl.
  rewrite filter_cb_total by congruence.
  destruct (IH Hfs) as [points ->]. by eexists.
Qed.

Lemma normalize_nil c : normalize [] c = Ok ([], c).
Proof. reflexivity. Qed.

Lemma normalize_null fs c :
  JNull ∈ fs → normalize fs c = Throw (TypeError "geometry").
Proof. intros H. unfold normalize, bind, lift. by rewrite array_filter_null. Qed.

(** Without [null] elements the three passes amount to one pass that
    handles the features one by one. *)
Lemma normalize_cons f fs c :
  JNull ∉ f :: fs →
  normalize (f :: fs) c =
    if strict_eq_string (geometry_type f) "Point" then
      match map_cb f c with
      | Throw e => Throw e
      | Ok (r, c1) =>
          match normalize fs c1 with
          | Throw e => Throw e
          | Ok (out, c') =>
              Ok (match r with Some s => s :: out | None => out end, c')
          end
      end
    else normalize fs c.
Proof.
  intros [Hf Hfs]%not_elem_of_cons.
  destruct (array_filter_ok fs Hfs) as [points Hp].
  unfold normalize, bind, lift. simpl.
  rewrite filter_cb_total, Hp by congruence.
  destruct (strict_eq_string _ _); [|done]. simpl. unfold bind.
  destruct (map_cb f c) as [[r c1]|e]; [|done].
  destruct (array_map map_cb points c1) as [[mapped c']|e]; [|done].
  by destruct r.
Qed.

Lemma normalize_keep f fs c :
  JNull ∉ fs → geometry_type f = Some (JString "Point") →
  is_pair (coordinates_of f) →
  ∃ s, map_cb f c = Ok (Some s, λ n, c (S n)) ∧
       normalize (f :: fs) c =
         match normalize fs (λ n, c (S n)) with
         | Throw e => Throw e
         | Ok (out, c') => Ok (s :: out, c')
         end.
Proof.
  intros Hfs Hp Hc. destruct (map_cb_some f c Hp Hc) as (s & Hs & _).
  exists s. split; [done|]. rewrite normalize_cons.
  - apply strict_eq_string_true in Hp. by rewrite Hp, Hs.
  - apply not_elem_of_cons. split; [|done]. by intros <-.
Qed.

Lemma normalize_skip f fs c :
  f ≠ JNull → ¬ emits f → normalize (f :: fs) c = normalize fs c.
Proof.
  intros Hf He. destruct (has_null fs) as [Hn|Hn].
  { rewrite !normalize_null; [done..|]. by apply elem_of_cons; right. }
  rewrite normalize_cons by (apply not_elem_of_cons; split; [congruence|done]).
  destruct (strict_eq_string _ _) eqn:Hp; [|done].
  apply strict_eq_string_true in Hp.
  rewrite map_cb_none; [by destruct (normalize fs c) as [[]|]|done|].
  intros Hc. apply He, emits_iff. by split.
Qed.

(** Every call on an array without [null] elements resolves, and its
    records line up with the features. *)
Lemma normalize_lined_up fs c :
  JNull ∉ fs → ∃ out c', normalize fs c = Ok (out, c') ∧ lined_up fs out.
Proof.
  revert c. induction fs as [|f fs IH]; intros c.
  { intros _. exists [], c. split; [done|constructor]. }
  intros [Hf Hfs]%not_elem_of_cons.
  destruct (strict_eq_string (geometry_type f) "Point") eqn:Hp.
  - apply strict_eq_string_true in Hp.
    destruct (negb (isArray (coordinates_of f)) ||
              negb (array_length (coordinates_of f) =? 2)%nat) eqn:Hg.
    + assert (He : ¬ emits f).
      { intros [_ Hc%pair_guard]%emits_iff. congruence. }
      rewrite normalize_skip by (done || congruence).
      destruct (IH c Hfs) as (out & c' & -> & Hl).
      exists out, c'. split; [done|]. by constructor.
    + apply pair_guard in Hg.
      destruct (normalize_keep f fs c Hfs Hp Hg) as (s & Hs & ->).
      destruct (IH (λ n, c (S n)) Hfs) as (out & c' & -> & Hl).
      exists (s :: out), c'. split; [done|]. constructor; [|done].
      split; [by apply filter_cb_keep|eauto].
  - assert (He : ¬ emits f).
    { intros [Hp'%strict_eq_string_true _]%emits_iff. congruence. }
    rewrite normalize_skip by (done || congruence).
    destruct (IH c Hfs) as (out & c' & -> & Hl).
    exists out, c'. split; [done|]. by constructor.
Qed.

End Chain.

(** ** Consequences of lining up *)

Section LinedUp.

Implicit Types (f : json) (fs : list json) (s : Shelter) (out : list Shelter).

Lemma lined_up_length fs out : lined_up fs out → length out ≤ length fs.
Proof. induction 1; simpl; lia. Qed.

Lemma lined_up_record fs out s :
  lined_up fs out → s ∈ out → ∃ f, f ∈ fs ∧ built_from f s.
Proof.
  induction 1 as [|f fs out He Hl IH|f fs s' out Hb Hl IH].
  - by intros ?%elem_of_nil.
  - intros (g & Hg & Hb)%IH. exists g. split; [by apply elem_of_cons; right|done].
  - intros [->|Hin]%elem_of_cons.
    + exists f. split; [by apply elem_of_cons; left|done].
    + destruct (IH Hin) as (g & Hg & Hb').
      exists g. split; [by apply elem_of_cons; right|done].
Qed.

Lemma lined_up_feature fs out f :
  lined_up fs out → f ∈ fs → emits f → ∃ s, s ∈ out ∧ built_from f s.
Proof.
  induction 1 as [|g fs out He Hl IH|g fs s' out Hb Hl IH].
  - by intros ?%elem_of_nil.
  - intros [->|Hin]%elem_of_cons Hf; [done|]. by apply IH.
  - intros [->|Hin]%elem_of_cons Hf.
    + exists s'. split; [by apply elem_of_cons; left|done].
    + destruct (IH Hin Hf) as (s & Hs & Hb').
      exists s. split; [by apply elem_of_cons; right|done].
Qed.

(** The input position of every output record, as a list [pos] that
    runs parallel to the output. *)
Lemma lined_up_positions fs out :
  lined_up fs out →
  ∃ pos : list nat,
    length pos = length out ∧
    (∀ k i, pos !! k = Some i →
            ∃ f s, fs !! i = Some f ∧ out !! k = Some s ∧ built_from f s) ∧
    (∀ i f, fs !! i = Some f → emits f → i ∈ pos) ∧
    (∀ k1 k2 i j, pos !! k1 = Some i → pos !! k2 = Some j →
                  (i < j ↔ k1 < k2)).
Proof.
  induction 1 as [|f fs out He Hl (pos & Hlen & Hat & Hall & Hord)
                  |f fs s out Hb Hl (pos & Hlen & Hat & Hall & Hord)].
  - exists []. repeat split; try done.
  - exists (S <$> pos). split_and!.
    + by rewrite length_fmap.
    + intros k i (j & -> & Hj)%list_lookup_fmap_Some. by apply Hat.
    + intros [|i] g Hi Hg; simpl in Hi.
      * by injection Hi as ->.
      * apply list_elem_of_fmap_2. by eapply Hall.
    + intros k1 k2 i j (i' & -> & Hi)%list_lookup_fmap_Some
                       (j' & -> & Hj)%list_lookup_fmap_Some.
      specialize (Hord k1 k2 i' j' Hi Hj). lia.
  - exists (0 :: (S <$> pos)). split_and!.
    + simpl. by rewrite length_fmap, Hlen.
    + intros [|k] i Hk; simpl in Hk.
      * injection Hk as <-. by exists f, s.
      * apply list_lookup_fmap_Some in Hk as (j & -> & Hj). by apply Hat.
    + intros [|i] g Hi Hg; simpl in Hi.
      * apply elem_of_cons. by left.
      * apply elem_of_cons. right. apply list_elem_of_fmap_2. by eapply Hall.
    + intros [|k1] [|k2] i j Hi Hj; simpl in Hi, Hj.
      * injection Hi as <-. injection Hj as <-. lia.
      * injection Hi as <-.
        apply list_lookup_fmap_Some in Hj as (j' & -> & _). lia.
      * injection Hj as <-.
        apply list_lookup_fmap_Some in Hi as (i' & -> & _). lia.
      * apply list_lookup_fmap_Some in Hi as (i' & -> & Hi).
        apply list_lookup_fmap_Some in Hj as (j' & -> & Hj).
        specialize (Hord k1 k2 i' j' Hi Hj). lia.
Qed.

End LinedUp.

(** ** The whole call *)

Section Call.

Implicit Types (f : json) (fs : list json) (c : clock) (res : Response).

Lemma fetch_rejected e c : fetchFEMAShelters (Throw e) c = Throw e.
Proof. reflexivity. Qed.

Lemma fetch_not_ok res c :
  ok res = false →
  fetchFEMAShelters (Ok res) c =
    Throw (Error ("Failed to fetch FEMA shelters: " ++ statusText res)).
Proof. intros H. unfold fetchFEMAShelters, bind, lift. by rewrite H. Qed.

Lemma fetch_body_rejected res e c :
  ok res = true → json_body res = Throw e →
  fetchFEMAShelters (Ok res) c = Throw e.
Proof. intros H1 H2. unfold fetchFEMAShelters, bind, lift. by rewrite H1, H2. Qed.

Lemma fetch_invalid res geojson c :
  delivers res geojson → features_of geojson = None →
  fetchFEMAShelters (Ok res) c =
    Throw (Error "Invalid GeoJSON response from ArcGIS").
Proof.
  intros [H1 H2] Hf. unfold fetchFEMAShelters, bind, lift. rewrite H1, H2. simpl.
  destruct geojson as [| | | | |props]; try done. simpl in *.
  destruct (props !! "features") as [[|b|n|t|items|o]|]; try done; simpl.
  - by destruct b.
  - by destruct (negb _).
  - by destruct (negb _).
Qed.

Lemma fetch_features res geojson fs c :
  delivers res geojson → features_of geojson = Some fs →
  fetchFEMAShelters (Ok res) c = normalize fs c.
Proof.
  intros [H1 H2] Hf. unfold fetchFEMAShelters, bind, lift. rewrite H1, H2. simpl.
  destruct geojson as [| | | | |props]; try done. simpl in *.
  destruct (props !! "features") as [[| | | |items|]|]; try done.
  by injection Hf as ->.
Qed.

(** A call that resolves got a successful response whose body has a
    [features] array without [null] elements, and its records line up
    with that array. *)
Lemma fetch_resolved fetched c out :
  settle (fetchFEMAShelters fetched) c = Ok out →
  ∃ res geojson fs,
    fetched = Ok res ∧ delivers res geojson ∧
    features_of geojson = Some fs ∧ (JNull ∉ fs) ∧ lined_up fs out.
Proof.
  unfold settle. destruct fetched as [res|e]; [|done].
  destruct (ok res) eqn:Hok; [|by rewrite fetch_not_ok].
  destruct (json_body res) as [geojson|e] eqn:Hb;
    [|by rewrite (fetch_body_rejected res e)].
  assert (Hd : delivers res geojson) by done.
  destruct (features_of geojson) as [fs|] eqn:Hf;
    [|by rewrite (fetch_invalid res geojson)].
  rewrite (fetch_features res geojson fs) by done.
  destruct (has_null fs) as [Hn|Hn]; [by rewrite normalize_null|].
  destruct (normalize_lined_up fs c Hn) as (out' & c' & -> & Hl).
  intros [= <-]. by exists res, geojson, fs.
Qed.

Lemma fetch_lined_up res geojson fs c out :
  delivers res geojson → features_of geojson = Some fs →
  settle (fetchFEMAShelters (Ok res)) c = Ok out →
  (JNull ∉ fs) ∧ lined_up fs out.
Proof.
  intros [_ Hb] Hf Hout.
  destruct (fetch_resolved _ _ _ Hout)
    as (res' & g' & fs' & [= <-] & [_ Hb'] & Hf' & Hn & Hl).
  rewrite Hb in Hb'. injection Hb' as <-.
  rewrite Hf in Hf'. by injection Hf' as <-.
Qed.

Lemma fetch_resolves res geojson fs c :
  delivers res geojson → features_of geojson = Some fs → JNull ∉ fs →
  ∃ out, settle (fetchFEMAShelters (Ok res)) c = Ok out ∧ lined_up fs out.
Proof.
  intros Hd Hf Hn. unfold settle. rewrite (fetch_features res geojson fs) by done.
  destruct (normalize_lined_up fs c Hn) as (out & c' & -> & Hl). by exists out.
Qed.

Lemma fetch_null_element res geojson fs c :
  delivers res geojson → features_of geojson = Some fs → JNull ∈ fs →
  settle (fetchFEMAShelters (Ok res)) c = Throw (TypeError "geometry").
Proof.
  intros Hd Hf Hn. unfold settle. rewrite (fetch_features res geojson fs) by done.
  by rewrite normalize_null.
Qed.

End Call.

(** ** Features that leave no trace, and the clock *)

Section Insensitive.

Implicit Types (f : json) (fs : list json) (c : clock).

Lemma no_null_check fs :
  forallb (λ f, negb (is_null f)) fs = true → JNull ∉ fs.
Proof.
  induction fs as [|f fs IH]; simpl.
  - intros _. apply not_elem_of_nil.
  - intros [Hf Hfs]%andb_true_iff. apply not_elem_of_cons.
    split; [by intros <-|by apply IH].
Qed.

Lemma emits_dec f : {emits f} + {¬ emits f}.
Proof.
  destruct (strict_eq_string (geometry_type f) "Point") eqn:Hp.
  - destruct (negb (isArray (coordinates_of f)) ||
              negb (array_length (coordinates_of f) =? 2)) eqn:Hg.
    + right. intros [_ Hc%pair_guard]%emits_iff. congruence.
    + left. apply emits_iff.
      split; [by apply strict_eq_string_true|by apply pair_guard].
  - right. intros [Hp'%strict_eq_string_true _]%emits_iff. congruence.
Qed.

(** Taking a feature that answers for no record out of the array
    changes neither the outcome nor the clock. *)
Lemma normalize_remove fs1 f fs2 c :
  f ≠ JNull → ¬ emits f →
  normalize (fs1 ++ f :: fs2) c = normalize (fs1 ++ fs2) c.
Proof.
  intros Hf He. revert c. induction fs1 as [|g fs1 IH]; intros c; simpl.
  { by apply normalize_skip. }
  destruct (has_null (g :: fs1 ++ fs2)) as [Hn|Hn].
  - rewrite !normalize_null; [done..|].
    rewrite elem_of_cons, elem_of_app in Hn.
    rewrite elem_of_cons, elem_of_app, elem_of_cons. tauto.
  - assert (Hn' : JNull ∉ g :: fs1 ++ f :: fs2).
    { rewrite elem_of_cons, elem_of_app in Hn.
      rewrite elem_of_cons, elem_of_app, elem_of_cons.
      intros [?|[?|[?|?]]]; try tauto. congruence. }
    rewrite !normalize_cons by done.
    destruct (strict_eq_string _ _); [|by apply IH].
    destruct (map_cb g c) as [[r c1]|e]; [|done]. by rewrite IH.
Qed.

(** Two runs over the same array agree up to the time stamps. *)
Lemma normalize_stamp fs c1 c2 :
  match normalize fs c1, normalize fs c2 with
  | Ok (out1, _), Ok (out2, _) => Forall2 same_but_stamp out1 out2
  | Throw e1, Throw e2 => e1 = e2
  | _, _ => False
  end.
Proof.
  destruct (has_null fs) as [Hn|Hn]; [by rewrite !normalize_null|].
  revert c1 c2. induction fs as [|f fs IH]; intros c1 c2.
  { rewrite !normalize_nil. constructor. }
  apply not_elem_of_cons in Hn as [Hf Hfs].
  destruct (emits_dec f) as [He|He].
  - apply emits_iff in He as [Hp Hc].
    destruct (normalize_keep f fs c1 Hfs Hp Hc) as (s1 & Hs1 & ->).
    destruct (normalize_keep f fs c2 Hfs Hp Hc) as (s2 & Hs2 & ->).
    specialize (IH Hfs (λ n, c1 (S n)) (λ n, c2 (S n))).
    destruct (normalize fs _) as [[out1 ?]|e1], (normalize fs _) as [[out2 ?]|e2];
      try done.
    constructor; [|done].
    destruct (map_cb_some f c1 Hp Hc) as (s & Hs & _ & _ & _ & _ & _ & Hsame).
    rewrite Hs1 in Hs. injection Hs as <-. by eapply Hsame.
  - rewrite !normalize_skip by (done || congruence). by apply IH.
Qed.

End Insensitive.

(** ** Sample runs *)

(** The scenario of the feed's documentation: an open shelter at
    longitude -80.25, latitude 25.75, with unreliable coordinate fields
    among its properties. *)
Example miami_record :
  settle (fetchFEMAShelters (Ok (Sample.response (Sample.payload [Sample.miami]))))
         Sample.stamps =
  Ok [ {| shelter_id := Some (JNumber 1%float);
          name := Some (JString "Test");
          address := Some (JString "");
          city := Some (JString "");
          state := Some (JString "");
          zip := Some (JString "");
          status := "OPEN";
          latitude := Some (JNumber 25.75%float);
          longitude := Some (JNumber (-80.25)%float);
          total_population := Some JNull;
          ada_compliant := Some JNull;
          wheelchair_accessible := Some JNull;
          pet_accommodations := Some JNull;
          source := "FEMA / ARC (National Shelter System)";
          last_updated := "2026-01-01T00:00:00.000Z" |} ].
Proof. reflexivity. Qed.

Example polygon_dropped :
  settle (fetchFEMAShelters (Ok (Sample.response (Sample.payload [Sample.polygon]))))
         Sample.stamps = Ok [].
Proof. reflexivity. Qed.

Example tampa_status_and_population :
  match settle (normalize [Sample.tampa]) Sample.stamps with
  | Ok out => (λ s, (status s, total_population s)) <$> out
  | Throw _ => []
  end = [("UNKNOWN", Some JNull)].
Proof. reflexivity. Qed.

(** The clock is read once per record, in output order, and not for a
    feature that is dropped. *)
Example stamps_in_order :
  match settle (normalize [Sample.miami; Sample.three_coords; Sample.tampa])
               Sample.stamps with
  | Ok out => last_updated <$> out
  | Throw _ => []
  end = ["2026-01-01T00:00:00.000Z"; "2026-01-01T00:00:00.001Z"].
Proof. reflexivity. Qed.

(** ** Properties of the normaliser *)

(** C1. In a call on a payload with [features] array [fs], a feature
    with geometry type "Point" whose coordinates are a pair of numbers
    [[x, y]] answers for a record of the output, and every record made of
    it has latitude [y] (coordinates[1]) and longitude [x]
    (coordinates[0]), whatever the properties object of the feature
    holds, latitude and longitude fields included. The call resolves
    whenever no element of [fs] is [null]. *)
Theorem C1_coordinates_from_geometry res geojson fs c i f x y :
  delivers res geojson → features_of geojson = Some fs →
  fs !! i = Some f →
  geometry_type f = Some (JString "Point") →
  coordinates_of f = Some (JArray [JNumber x; JNumber y]) →
  (JNull ∉ fs → ∃ out, settle (fetchFEMAShelters (Ok res)) c = Ok out) ∧
  (∀ out, settle (fetchFEMAShelters (Ok res)) c = Ok out →
          ∃ s, s ∈ out ∧ built_from f s) ∧
  (∀ s, built_from f s →
        latitude s = Some (JNumber y) ∧ longitude s = Some (JNumber x)).
Proof.
  intros Hd Hfs Hi Hp Hc. split_and!.
  - intros Hn. destruct (fetch_resolves res geojson fs c Hd Hfs Hn) as (out & ? & _).
    by exists out.
  - intros out Hout.
    destruct (fetch_lined_up res geojson fs c out Hd Hfs Hout) as [_ Hl].
    eapply lined_up_feature; [done|by eapply list_elem_of_lookup_2|].
    apply emits_iff. split; [done|]. rewrite Hc. by eexists _, _.
  - intros s (_ & _ & Hlat & Hlon & _)%built_from_fields.
    by rewrite Hlat, Hlon, Hc.
Qed.

Lemma C1_coordinates_from_geometry_witness :
  ∃ out,
    settle (fetchFEMAShelters
              (Ok (Sample.response (Sample.payload [Sample.polygon; Sample.miami]))))
           Sample.stamps = Ok out ∧
    ∃ s, s ∈ out ∧ latitude s = Some (JNumber 25.75%float) ∧
         longitude s = Some (JNumber (-80.25)%float).
Proof.
  destruct (C1_coordinates_from_geometry
              (Sample.response (Sample.payload [Sample.polygon; Sample.miami]))
              (Sample.payload [Sample.polygon; Sample.miami])
              [Sample.polygon; Sample.miami] Sample.stamps 1 Sample.miami
              (-80.25)%float 25.75%float) as (Hres & Hrec & Hall).
  - split; reflexivity.
  - reflexivity.
  - reflexivity.
  - reflexivity.
  - reflexivity.
  - destruct Hres as [out Hout]; [apply no_null_check; reflexivity|].
    exists out. split; [exact Hout|].
    destruct (Hrec out Hout) as (s & Hin & Hb).
    exists s. split; [exact Hin|]. exact (Hall s Hb).
Defined.

(** C2, as stated, fails: a Point feature whose coordinates are two
    values that are not numbers is kept, and its record carries them;
    here both are [null]. *)
Lemma C2_counterexample :
  geometry_type Sample.null_coords = Some (JString "Point") ∧
  (∀ x y, coordinates_of Sample.null_coords ≠ Some (JArray [JNumber x; JNumber y])) ∧
  ∃ s, settle (fetchFEMAShelters
                 (Ok (Sample.response (Sample.payload [Sample.null_coords]))))
              Sample.stamps = Ok [s] ∧
       built_from Sample.null_coords s ∧
       latitude s = Some JNull ∧ longitude s = Some JNull.
Proof.
  split; [reflexivity|]. split; [by intros x y|].
  eexists. split; [reflexivity|]. split; [|by split].
  split; [reflexivity|]. by exists Sample.stamps, (λ n, Sample.stamps (S n)).
Qed.

(** C2, amended. A feature with Point geometry whose coordinates value
    is missing or is not an array of exactly two members is dropped
    without an error: both callbacks return normally and the call
    behaves as on the payload without the feature. Every record of the
    output has for longitude and latitude the two members of the
    coordinates array of a feature of the payload; the members are not
    checked to be numbers. *)
Theorem C2_two_member_coordinates res geojson fs c :
  delivers res geojson → features_of geojson = Some fs →
  (∀ fs1 f fs2 res' geojson',
     fs = fs1 ++ f :: fs2 →
     geometry_type f = Some (JString "Point") → ¬ is_pair (coordinates_of f) →
     delivers res' geojson' → features_of geojson' = Some (fs1 ++ fs2) →
     filter_cb f = Ok true ∧ (∀ c', map_cb f c' = Ok (None, c')) ∧
     fetchFEMAShelters (Ok res) c = fetchFEMAShelters (Ok res') c) ∧
  (∀ out s,
     settle (fetchFEMAShelters (Ok res)) c = Ok out → s ∈ out →
     ∃ f lon lat,
       f ∈ fs ∧ built_from f s ∧
       coordinates_of f = Some (JArray [lon; lat]) ∧
       longitude s = Some lon ∧ latitude s = Some lat).
Proof.
  intros Hd Hfs. split.
  - intros fs1 f fs2 res' geojson' -> Hp Hc Hd' Hfs'. split_and!.
    + by apply filter_cb_keep.
    + intros c'. by apply map_cb_none.
    + rewrite (fetch_features res geojson (fs1 ++ f :: fs2)) by done.
      rewrite (fetch_features res' geojson' (fs1 ++ fs2)) by done.
      apply normalize_remove.
      * intros ->. discriminate Hp.
      * by intros [_ ?]%emits_iff.
  - intros out s Hout Hs.
    destruct (fetch_lined_up res geojson fs c out Hd Hfs Hout) as [_ Hl].
    destruct (lined_up_record fs out s Hl Hs) as (f & Hf & Hb).
    destruct (built_from_fields f s Hb) as (_ & (lon & lat & Hc) & Hlat & Hlon & _).
    exists f, lon, lat. rewrite Hlat, Hlon, Hc. by split_and!.
Qed.

Lemma C2_two_member_coordinates_witness :
  fetchFEMAShelters
    (Ok (Sample.response
           (Sample.payload [Sample.miami; Sample.three_coords; Sample.tampa])))
    Sample.stamps =
  fetchFEMAShelters
    (Ok (Sample.response (Sample.payload [Sample.miami; Sample.tampa])))
    Sample.stamps.
Proof.
  destruct (C2_two_member_coordinates
              (Sample.response
                 (Sample.payload [Sample.miami; Sample.three_coords; Sample.tampa]))
              (Sample.payload [Sample.miami; Sample.three_coords; Sample.tampa])
              [Sample.miami; Sample.three_coords; Sample.tampa] Sample.stamps)
    as [Hdrop _].
  - split; reflexivity.
  - reflexivity.
  - destruct (Hdrop [Sample.miami] Sample.three_coords [Sample.tampa]
                (Sample.response (Sample.payload [Sample.miami; Sample.tampa]))
                (Sample.payload [Sample.miami; Sample.tampa]))
      as (_ & _ & Heq).
    + reflexivity.
    + reflexivity.
    + intros (lon & lat & Hpair). discriminate Hpair.
    + split; reflexivity.
    + reflexivity.
    + exact Heq.
Defined.

(** C3, as stated, fails: a [null] element of [features] has no geometry
    of type "Point", and the first filter throws on reading its
    geometry, which rejects the whole call. *)
Lemma C3_counterexample :
  geometry_type JNull ≠ Some (JString "Point") ∧
  settle (fetchFEMAShelters
            (Ok (Sample.response (Sample.payload [Sample.miami; JNull]))))
         Sample.stamps = Throw (TypeError "geometry").
Proof. split; [discriminate|reflexivity]. Qed.

(** C3, amended. A feature other than [null] whose geometry type is not
    "Point" (its geometry may be missing or [null], and the feature need
    not be an object) answers for no record and raises nothing: the
    first filter returns false on it and the call behaves as on the
    payload without it. *)
Theorem C3_non_point_dropped res geojson res' geojson' fs1 f fs2 c :
  delivers res geojson → features_of geojson = Some (fs1 ++ f :: fs2) →
  delivers res' geojson' → features_of geojson' = Some (fs1 ++ fs2) →
  f ≠ JNull → geometry_type f ≠ Some (JString "Point") →
  filter_cb f = Ok false ∧ (∀ s, ¬ built_from f s) ∧
  fetchFEMAShelters (Ok res) c = fetchFEMAShelters (Ok res') c.
Proof.
  intros Hd Hfs Hd' Hfs' Hf Hp.
  assert (He : ¬ emits f) by (by intros [? _]%emits_iff).
  split_and!.
  - by apply filter_cb_drop.
  - intros s Hb. apply He. by exists s.
  - rewrite (fetch_features res geojson (fs1 ++ f :: fs2)) by done.
    rewrite (fetch_features res' geojson' (fs1 ++ fs2)) by done.
    by apply normalize_remove.
Qed.

Lemma C3_non_point_dropped_witness :
  filter_cb Sample.polygon = Ok false ∧
  fetchFEMAShelters
    (Ok (Sample.response
           (Sample.payload [Sample.miami; Sample.polygon; Sample.no_geometry])))
    Sample.stamps =
  fetchFEMAShelters
    (Ok (Sample.response (Sample.payload [Sample.miami; Sample.no_geometry])))
    Sample.stamps.
Proof.
  destruct (C3_non_point_dropped
              (Sample.response
                 (Sample.payload [Sample.miami; Sample.polygon; Sample.no_geometry]))
              (Sample.payload [Sample.miami; Sample.polygon; Sample.no_geometry])
              (Sample.response (Sample.payload [Sample.miami; Sample.no_geometry]))
              (Sample.payload [Sample.miami; Sample.no_geometry])
              [Sample.miami] Sample.polygon [Sample.no_geometry] Sample.stamps)
    as (Hcb & _ & Heq).
  - split; reflexivity.
  - reflexivity.
  - split; reflexivity.
  - reflexivity.
  - discriminate.
  - discriminate.
  - split; [exact Hcb|exact Heq].
Defined.

(** C4. The status of every record of the output is "OPEN", "CLOSED" or
    "UNKNOWN", and it is "UNKNOWN" whenever [properties.shelter_status]
    of the feature the record is made of is neither the string "OPEN"
    nor the string "CLOSED", which includes a missing field and a
    missing properties object; the two literal strings are passed on.
    The call resolves whenever no element of [fs] is [null]. *)
Theorem C4_status res geojson fs c :
  delivers res geojson → features_of geojson = Some fs →
  (JNull ∉ fs → ∃ out, settle (fetchFEMAShelters (Ok res)) c = Ok out) ∧
  (∀ out s,
     settle (fetchFEMAShelters (Ok res)) c = Ok out → s ∈ out →
     (status s = "OPEN" ∨ status s = "CLOSED" ∨ status s = "UNKNOWN") ∧
     (∃ f, f ∈ fs ∧ built_from f s) ∧
     (∀ f, built_from f s →
           (property f "shelter_status" ≠ Some (JString "OPEN") →
            property f "shelter_status" ≠ Some (JString "CLOSED") →
            status s = "UNKNOWN") ∧
           (property f "shelter_status" = Some (JString "OPEN") →
            status s = "OPEN") ∧
           (property f "shelter_status" = Some (JString "CLOSED") →
            status s = "CLOSED"))).
Proof.
  intros Hd Hfs. split.
  { intros Hn. destruct (fetch_resolves res geojson fs c Hd Hfs Hn) as (out & ? & _).
    by exists out. }
  intros out s Hout Hs.
  destruct (fetch_lined_up res geojson fs c out Hd Hfs Hout) as [_ Hl].
  destruct (lined_up_record fs out s Hl Hs) as (f & Hf & Hb).
  split_and!.
  - destruct (built_from_fields f s Hb) as (_ & _ & _ & _ & -> & _).
    destruct (strict_eq_string _ "OPEN"); [by left|].
    destruct (strict_eq_string _ "CLOSED"); [by right; left|by right; right].
  - by exists f.
  - intros g (_ & _ & _ & _ & -> & _)%built_from_fields. split_and!.
    + intros Hopen Hclosed.
      destruct (strict_eq_string _ "OPEN") eqn:H1;
        [by apply strict_eq_string_true in H1|].
      destruct (strict_eq_string _ "CLOSED") eqn:H2;
        [by apply strict_eq_string_true in H2|done].
    + by intros ->.
    + by intros ->.
Qed.

Lemma C4_status_witness :
  ∃ out,
    settle (fetchFEMAShelters
              (Ok (Sample.response (Sample.payload [Sample.miami; Sample.tampa]))))
           Sample.stamps = Ok out ∧
    ∀ s, s ∈ out →
         status s = "OPEN" ∨ status s = "CLOSED" ∨ status s = "UNKNOWN".
Proof.
  destruct (C4_status
              (Sample.response (Sample.payload [Sample.miami; Sample.tampa]))
              (Sample.payload [Sample.miami; Sample.tampa])
              [Sample.miami; Sample.tampa] Sample.stamps) as [Hres Hall].
  - split; reflexivity.
  - reflexivity.
  - destruct Hres as [out Hout]; [apply no_null_check; reflexivity|].
    exists out. split; [exact Hout|].
    intros s Hs. exact (proj1 (Hall out s Hout Hs)).
Defined.

(** C5. The total population of every record of the output is a number
    or [null]; it is [null] whenever [properties.total_population] of
    the feature the record is made of is not a number (a string, an
    object, missing), and a number is passed on unchanged. The call
    resolves whenever no element of [fs] is [null]. *)
Theorem C5_total_population res geojson fs c :
  delivers res geojson → features_of geojson = Some fs →
  (JNull ∉ fs → ∃ out, settle (fetchFEMAShelters (Ok res)) c = Ok out) ∧
  (∀ out s,
     settle (fetchFEMAShelters (Ok res)) c = Ok out → s ∈ out →
     (total_population s = Some JNull ∨
      ∃ n, total_population s = Some (JNumber n)) ∧
     (∃ f, f ∈ fs ∧ built_from f s) ∧
     (∀ f, built_from f s →
           ((∀ n, property f "total_population" ≠ Some (JNumber n)) →
            total_population s = Some JNull) ∧
           (∀ n, property f "total_population" = Some (JNumber n) →
                 total_population s = Some (JNumber n)))).
Proof.
  intros Hd Hfs. split.
  { intros Hn. destruct (fetch_resolves res geojson fs c Hd Hfs Hn) as (out & ? & _).
    by exists out. }
  intros out s Hout Hs.
  destruct (fetch_lined_up res geojson fs c out Hd Hfs Hout) as [_ Hl].
  destruct (lined_up_record fs out s Hl Hs) as (f & Hf & Hb).
  split_and!.
  - destruct (built_from_fields f s Hb) as (_ & _ & _ & _ & _ & ->).
    destruct (property f "total_population") as [[]|]; simpl; eauto.
  - by exists f.
  - intros g (_ & _ & _ & _ & _ & ->)%built_from_fields. split.
    + intros Hnum.
      destruct (property g "total_population") as [[| |n| | |]|]; try done.
      by destruct (Hnum n).
    + by intros n ->.
Qed.

Lemma C5_total_population_witness :
  ∃ out,
    settle (fetchFEMAShelters
              (Ok (Sample.response (Sample.payload [Sample.miami; Sample.tampa]))))
           Sample.stamps = Ok out ∧
    ∀ s, s ∈ out →
         total_population s = Some JNull ∨
         ∃ n, total_population s = Some (JNumber n).
Proof.
  destruct (C5_total_population
              (Sample.response (Sample.payload [Sample.miami; Sample.tampa]))
              (Sample.payload [Sample.miami; Sample.tampa])
              [Sample.miami; Sample.tampa] Sample.stamps) as [Hres Hall].
  - split; reflexivity.
  - reflexivity.
  - destruct Hres as [out Hout]; [apply no_null_check; reflexivity|].
    exists out. split; [exact Hout|].
    intros s Hs. exact (proj1 (Hall out s Hout Hs)).
Defined.

(** C6. When the response is successful and its parsed body has no
    [features] property or one that is not an array (which covers a body
    that is not an object), the call rejects, returning no records, with
    an error whose message starts with "Invalid GeoJSON response" (it is
    "Invalid GeoJSON response from ArcGIS"); no response with an
    unsuccessful status leads to an error with that message. *)
Theorem C6_invalid_format res geojson c :
  delivers res geojson → features_of geojson = None →
  ∃ message,
    settle (fetchFEMAShelters (Ok res)) c = Throw (Error message) ∧
    message = "Invalid GeoJSON response from ArcGIS" ∧
    String.prefix "Invalid GeoJSON response" message = true ∧
    (∀ res' c', ok res' = false →
                settle (fetchFEMAShelters (Ok res')) c' ≠ Throw (Error message)).
Proof.
  intros Hd Hf. eexists. split_and!.
  - unfold settle. by rewrite (fetch_invalid res geojson).
  - reflexivity.
  - reflexivity.
  - intros res' c' Hok. unfold settle. by rewrite fetch_not_ok.
Qed.

Lemma C6_invalid_format_witness :
  settle (fetchFEMAShelters
            (Ok (Sample.response (JObject {["features" := JString "none"]}))))
         Sample.stamps =
    Throw (Error "Invalid GeoJSON response from ArcGIS").
Proof.
  destruct (C6_invalid_format
              (Sample.response (JObject {["features" := JString "none"]}))
              (JObject {["features" := JString "none"]}) Sample.stamps)
    as (message & Hthrow & Hmsg & _).
  - split; reflexivity.
  - reflexivity.
  - rewrite Hthrow, Hmsg. reflexivity.
Defined.

(** C7. When the response does not have a successful status, the call
    rejects with an error whose message is "Failed to fetch FEMA
    shelters: " followed by the status text, and returns no records. *)
Theorem C7_fetch_error res c :
  ok res = false →
  settle (fetchFEMAShelters (Ok res)) c =
    Throw (Error ("Failed to fetch FEMA shelters: " ++ statusText res)).
Proof. intros Hok. unfold settle. by rewrite fetch_not_ok. Qed.

Lemma C7_fetch_error_witness :
  settle (fetchFEMAShelters (Ok Sample.unavailable)) Sample.stamps =
    Throw (Error "Failed to fetch FEMA shelters: Service Unavailable").
Proof. apply (C7_fetch_error Sample.unavailable Sample.stamps). reflexivity. Defined.

(** C8. The records of the output are in the order of the features they
    are made of: there is a list [pos], parallel to the output, of the
    input positions of the records, it holds the position of every
    feature that answers for a record, and position [i] comes before
    position [j] in the input exactly when their records come in that
    order in the output. The call resolves whenever no element of [fs]
    is [null]. *)
Theorem C8_order_preserved res geojson fs c :
  delivers res geojson → features_of geojson = Some fs →
  (JNull ∉ fs → ∃ out, settle (fetchFEMAShelters (Ok res)) c = Ok out) ∧
  (∀ out,
     settle (fetchFEMAShelters (Ok res)) c = Ok out →
     ∃ pos : list nat,
       length pos = length out ∧
       (∀ k i, pos !! k = Some i →
               ∃ f s, fs !! i = Some f ∧ out !! k = Some s ∧ built_from f s) ∧
       (∀ i f, fs !! i = Some f → emits f → i ∈ pos) ∧
       (∀ k1 k2 i j, pos !! k1 = Some i → pos !! k2 = Some j →
                     (i < j ↔ k1 < k2))).
Proof.
  intros Hd Hfs. split.
  { intros Hn. destruct (fetch_resolves res geojson fs c Hd Hfs Hn) as (out & ? & _).
    by exists out. }
  intros out Hout.
  destruct (fetch_lined_up res geojson fs c out Hd Hfs Hout) as [_ Hl].
  by apply lined_up_positions.
Qed.

Lemma C8_order_preserved_witness :
  ∃ out,
    settle (fetchFEMAShelters
              (Ok (Sample.response
                     (Sample.payload [Sample.miami; Sample.polygon; Sample.tampa]))))
           Sample.stamps = Ok out ∧
    ∃ pos : list nat, length pos = length out.
Proof.
  destruct (C8_order_preserved
              (Sample.response
                 (Sample.payload [Sample.miami; Sample.polygon; Sample.tampa]))
              (Sample.payload [Sample.miami; Sample.polygon; Sample.tampa])
              [Sample.miami; Sample.polygon; Sample.tampa] Sample.stamps)
    as [Hres Hall].
  - split; reflexivity.
  - reflexivity.
  - destruct Hres as [out Hout]; [apply no_null_check; reflexivity|].
    exists out. split; [exact Hout|].
    destruct (Hall out Hout) as (pos & Hlen & _). exists pos. exact Hlen.
Defined.

(** C9. Two runs on the same response, at any two states of the clock,
    have the same outcome up to the time stamps: both reject with the
    same error, or both resolve with outputs of the same length whose
    records agree position by position on every field other than
    [last_updated]. *)
Theorem C9_same_up_to_stamp fetched c1 c2 :
  match settle (fetchFEMAShelters fetched) c1,
        settle (fetchFEMAShelters fetched) c2 with
  | Ok out1, Ok out2 => Forall2 same_but_stamp out1 out2
  | Throw e1, Throw e2 => e1 = e2
  | _, _ => False
  end.
Proof.
  unfold settle. destruct fetched as [res|e]; [|done].
  destruct (ok res) eqn:Hok; [|by rewrite !fetch_not_ok].
  destruct (json_body res) as [geojson|e] eqn:Hb;
    [|by rewrite !(fetch_body_rejected res e)].
  assert (Hd : delivers res geojson) by done.
  destruct (features_of geojson) as [fs|] eqn:Hf;
    [|by rewrite !(fetch_invalid res geojson)].
  rewrite !(fetch_features res geojson fs) by done.
  pose proof (normalize_stamp fs c1 c2) as H.
  by destruct (normalize fs c1) as [[]|], (normalize fs c2) as [[]|].
Qed.

(** C10. On a payload that passes the shape check the call resolves with
    at most as many records as the [features] array has elements, or,
    when an element of the array is [null], rejects. *)
Theorem C10_at_most_one_each res geojson fs c :
  delivers res geojson → features_of geojson = Some fs →
  match settle (fetchFEMAShelters (Ok res)) c with
  | Ok out => length out ≤ length fs
  | Throw e => JNull ∈ fs ∧ e = TypeError "geometry"
  end.
Proof.
  intros Hd Hfs. destruct (has_null fs) as [Hn|Hn].
  - by rewrite (fetch_null_element res geojson fs).
  - destruct (fetch_resolves res geojson fs c Hd Hfs Hn) as (out & -> & Hl).
    by apply lined_up_length.
Qed.

Lemma C10_at_most_one_each_witness :
  match settle (fetchFEMAShelters
                  (Ok (Sample.response
                         (Sample.payload
                            [Sample.miami; Sample.polygon; Sample.three_coords]))))
               Sample.stamps with
  | Ok out => length out ≤ 3
  | Throw e =>
      JNull ∈ [Sample.miami; Sample.polygon; Sample.three_coords] ∧
      e = TypeError "geometry"
  end.
Proof.
  apply (C10_at_most_one_each
           (Sample.response
              (Sample.payload [Sample.miami; Sample.polygon; Sample.three_coords]))
           (Sample.payload [Sample.miami; Sample.polygon; Sample.three_coords])
           [Sample.miami; Sample.polygon; Sample.three_coords] Sample.stamps).
  - split; reflexivity.
  - reflexivity.
Defined.

(** ** Further properties: the fields of a record *)

Section Fields.

Implicit Types (f g : json) (fs : list json) (c : clock) (s : Shelter).

Lemma or_default_coalesce v d : or_default v d (coalesce v d).
Proof.
  split.
  - by intros [->| ->].
  - intros j -> Hj. by destruct j.
Qed.

(** A record is determined by the coordinates and the read properties of
    its feature, and by the reading of the clock. *)
Lemma built_from_record f s :
  built_from f s →
  s = {| shelter_id := property f "shelter_id";
         name := coalesce (property f "shelter_name") (JString "Unknown Shelter");
         address := coalesce (property f "address") (JString "");
         city := coalesce (property f "city") (JString "");
         state := coalesce (property f "state") (JString "");
         zip := coalesce (property f "zip") (JString "");
         status :=
           if strict_eq_string (property f "shelter_status") "OPEN" then "OPEN"
           else if strict_eq_string (property f "shelter_status") "CLOSED"
                then "CLOSED" else "UNKNOWN";
         latitude := index (coordinates_of f) 1;
         longitude := index (coordinates_of f) 0;
         total_population :=
           if typeof_number (property f "total_population")
           then property f "total_population" else Some JNull;
         ada_compliant := coalesce (property f "ada_compliant") JNull;
         wheelchair_accessible := coalesce (property f "wheelchair_accessible") JNull;
         pet_accommodations := coalesce (property f "pet_accommodations_code") JNull;
         source := "FEMA / ARC (National Shelter System)";
         last_updated := last_updated s |}.
Proof.
  intros (Hp%filter_cb_keep & c & c' & Hm).
  rewrite map_cb_reads in Hm by done. simpl in Hm.
  destruct (_ || _); [done|]. unfold bind, now, ret in Hm.
  by injection Hm as <- _.
Qed.

Lemma fetch_record res geojson fs c out s :
  delivers res geojson → features_of geojson = Some fs →
  settle (fetchFEMAShelters (Ok res)) c = Ok out → s ∈ out →
  ∃ f, f ∈ fs ∧ built_from f s.
Proof.
  intros Hd Hfs Hout Hs.
  destruct (fetch_lined_up res geojson fs c out Hd Hfs Hout) as [_ Hl].
  by eapply lined_up_record.
Qed.

End Fields.

(** Both guards of a sample feature, checked by evaluation. *)
Ltac emits_by_computation :=
  apply emits_iff; split; [reflexivity | apply pair_guard; reflexivity].

(** X1. The name of a record is [properties.shelter_name] of its
    feature, whatever JSON value that is, and "Unknown Shelter" only when
    the field is missing or [null]; address, city, state and zip are
    handled alike with the empty string for default. An empty string,
    zero or [false] in the feed is kept. *)
Theorem X1_text_defaults f s :
  built_from f s →
  or_default (property f "shelter_name") (JString "Unknown Shelter") (name s) ∧
  or_default (property f "address") (JString "") (address s) ∧
  or_default (property f "city") (JString "") (city s) ∧
  or_default (property f "state") (JString "") (state s) ∧
  or_default (property f "zip") (JString "") (zip s).
Proof.
  intros ->%built_from_record. simpl. split_and!; apply or_default_coalesce.
Qed.

Lemma X1_text_defaults_witness :
  ∃ s, built_from Sample.nameless s ∧
       name s = Some (JString "") ∧ address s = Some (JString "").
Proof.
  assert (Hb : ∃ s, built_from Sample.nameless s).
  { emits_by_computation. }
  destruct Hb as [s Hb]. exists s. split; [exact Hb|].
  destruct (X1_text_defaults Sample.nameless s Hb) as ([_ Hname] & [Haddr _] & _).
  split.
  - apply Hname; [reflexivity|discriminate].
  - apply Haddr. right. reflexivity.
Defined.

(** X2. The shelter id of a record is [properties.shelter_id] of its
    feature as it is, missing when the field is missing; the two
    accessibility fields and the pet accommodations (read from
    [pet_accommodations_code]) are the feed's values, whatever they are,
    or [null] when missing; the source is the fixed provenance text. *)
Theorem X2_verbatim_fields f s :
  built_from f s →
  shelter_id s = property f "shelter_id" ∧
  or_default (property f "ada_compliant") JNull (ada_compliant s) ∧
  or_default (property f "wheelchair_accessible") JNull (wheelchair_accessible s) ∧
  or_default (property f "pet_accommodations_code") JNull (pet_accommodations s) ∧
  source s = "FEMA / ARC (National Shelter System)".
Proof.
  intros ->%built_from_record. simpl.
  split_and!; (reflexivity || apply or_default_coalesce).
Qed.

Lemma X2_verbatim_fields_witness :
  ∃ s, built_from Sample.nameless s ∧
       shelter_id s = Some (JNumber 4%float) ∧
       wheelchair_accessible s = Some JNull ∧
       pet_accommodations s = Some (JString "SERVICE ANIMALS ONLY").
Proof.
  assert (Hb : ∃ s, built_from Sample.nameless s).
  { emits_by_computation. }
  destruct Hb as [s Hb]. exists s. split; [exact Hb|].
  destruct (X2_verbatim_fields Sample.nameless s Hb)
    as (Hid & _ & [Hwheel _] & [_ Hpet] & _).
  split_and!.
  - exact Hid.
  - apply Hwheel. left. reflexivity.
  - apply Hpet; [reflexivity|discriminate].
Defined.



(** ** Further properties: the chain and the clock *)

Section Chain2.

Implicit Types (f g : json) (fs : list json) (c : clock) (s : Shelter).

Lemma normalize_ok_no_null fs c r : normalize fs c = Ok r → JNull ∉ fs.
Proof.
  intros H. destruct (has_null fs) as [Hn|Hn]; [|done].
  by rewrite normalize_null in H.
Qed.

Lemma accepted_emits f : accepted f = true ↔ emits f.
Proof.
  unfold accepted. rewrite emits_iff, andb_true_iff.
  rewrite <- strict_eq_string_true, <- pair_guard.
  destruct (isArray _), (_ =? _); simpl; intuition congruence.
Qed.

Lemma map_cb_alike f g c :
  geometry_type f = Some (JString "Point") →
  geometry_type g = Some (JString "Point") →
  coordinates_of f = coordinates_of g →
  (∀ k, k ∈ read_names → property f k = property g k) →
  map_cb f c = map_cb g c.
Proof.
  intros Hf Hg Hc Hk. rewrite !map_cb_reads by done. simpl. rewrite Hc.
  assert (Hin : ∀ k, In k read_names → property f k = property g k).
  { intros k ?. by apply Hk, list_elem_of_In. }
  by rewrite !Hin by (simpl; tauto).
Qed.

(** Putting a feature in the place of one that the callbacks treat
    alike leaves the outcome as it is. *)
Lemma normalize_replace fs1 f g fs2 c :
  f ≠ JNull → g ≠ JNull →
  strict_eq_string (geometry_type f) "Point" =
    strict_eq_string (geometry_type g) "Point" →
  (∀ c', map_cb f c' = map_cb g c') →
  normalize (fs1 ++ f :: fs2) c = normalize (fs1 ++ g :: fs2) c.
Proof.
  intros Hf Hg Hp Hm. revert c. induction fs1 as [|h fs1 IH]; intros c; simpl.
  - destruct (has_null fs2) as [Hn|Hn].
    + rewrite !normalize_null; [done|by apply elem_of_cons; right..].
    + rewrite !normalize_cons by (apply not_elem_of_cons; split; [congruence|done]).
      by rewrite Hp, Hm.
  - destruct (has_null (h :: fs1 ++ f :: fs2)) as [Hn|Hn].
    + rewrite !normalize_null; [done| |done].
      rewrite elem_of_cons, elem_of_app, elem_of_cons in Hn.
      rewrite elem_of_cons, elem_of_app, elem_of_cons.
      destruct Hn as [?|[?|[?|?]]]; try tauto. congruence.
    + assert (Hn' : JNull ∉ h :: fs1 ++ g :: fs2).
      { rewrite elem_of_cons, elem_of_app, elem_of_cons in Hn.
        rewrite elem_of_cons, elem_of_app, elem_of_cons.
        intros [?|[?|[?|?]]]; try tauto. congruence. }
      rewrite !normalize_cons by done.
      destruct (strict_eq_string (geometry_type h) "Point"); [|by apply IH].
      destruct (map_cb h c) as [[r c1]|e]; [|done]. by rewrite IH.
Qed.

(** One reading of the clock per record, in output order. *)
Lemma normalize_clock fs c out c' :
  normalize fs c = Ok (out, c') →
  (∀ n, c' n = c (length out + n)) ∧
  (∀ k s, out !! k = Some s → last_updated s = c k).
Proof.
  revert c out. induction fs as [|f fs IH]; intros c out Hrun.
  { rewrite normalize_nil in Hrun. injection Hrun as <- <-. by split. }
  apply normalize_ok_no_null in Hrun as Hn.
  apply not_elem_of_cons in Hn as [Hf Hfs].
  destruct (emits_dec f) as [He|He].
  - apply emits_iff in He as [Hp Hc].
    destruct (normalize_keep f fs c Hfs Hp Hc) as (s & Hs & Heq).
    rewrite Heq in Hrun.
    destruct (normalize fs (λ n, c (S n))) as [[out0 c0]|e] eqn:Hrest; [|done].
    injection Hrun as <- <-.
    destruct (IH _ _ Hrest) as [Hclock Hstamps]. split.
    + intros n. by rewrite Hclock.
    + intros [|k] s' Hk; simpl in Hk.
      * injection Hk as <-.
        destruct (map_cb_some f c Hp Hc) as (s' & Hs' & Hlast & _).
        rewrite Hs in Hs'. by injection Hs' as <-.
      * by apply Hstamps in Hk.
  - rewrite normalize_skip in Hrun by (done || congruence). by apply IH.
Qed.

(** The records of a concatenation are the records of its parts, the
    second part starting at the clock the first part leaves. *)
Lemma normalize_app fs1 fs2 c out1 c1 out2 c2 :
  normalize fs1 c = Ok (out1, c1) → normalize fs2 c1 = Ok (out2, c2) →
  normalize (fs1 ++ fs2) c = Ok (out1 ++ out2, c2).
Proof.
  intros H1 H2. apply normalize_ok_no_null in H2 as Hn2.
  revert c out1 H1. induction fs1 as [|f fs1 IH]; intros c out1 H1; simpl.
  { rewrite normalize_nil in H1. by injection H1 as <- <-. }
  apply normalize_ok_no_null in H1 as Hn1.
  assert (Hn : JNull ∉ f :: fs1 ++ fs2).
  { rewrite elem_of_cons, elem_of_app. rewrite elem_of_cons in Hn1. tauto. }
  rewrite normalize_cons in H1 |- * by done.
  destruct (strict_eq_string _ _); [|by apply IH].
  destruct (map_cb f c) as [[r c0]|e]; [|done].
  destruct (normalize fs1 c0) as [[out0 c0']|e] eqn:Hrest; [|done].
  injection H1 as <- <-. rewrite (IH _ _ Hrest). by destruct r.
Qed.

Lemma lined_up_accepted fs out :
  lined_up fs out → Forall2 built_from (List.filter accepted fs) out.
Proof.
  induction 1 as [|f fs out He Hl IH|f fs s out Hb Hl IH]; simpl.
  - constructor.
  - rewrite <- accepted_emits in He. by destruct (accepted f).
  - assert (Ha : accepted f = true) by (apply accepted_emits; by exists s).
    rewrite Ha. by constructor.
Qed.

Lemma fetch_normalize fetched c out c' :
  fetchFEMAShelters fetched c = Ok (out, c') →
  ∃ res geojson fs,
    fetched = Ok res ∧ delivers res geojson ∧
    features_of geojson = Some fs ∧ normalize fs c = Ok (out, c').
Proof.
  destruct fetched as [res|e]; [|done].
  destruct (ok res) eqn:Hok; [|by rewrite fetch_not_ok].
  destruct (json_body res) as [geojson|e] eqn:Hb;
    [|by rewrite (fetch_body_rejected res e)].
  assert (Hd : delivers res geojson) by done.
  destruct (features_of geojson) as [fs|] eqn:Hf;
    [|by rewrite (fetch_invalid res geojson)].
  rewrite (fetch_features res geojson fs) by done.
  intros Hrun. by exists res, geojson, fs.
Qed.

End Chain2.

Lemma fetch_runs res geojson fs c :
  delivers res geojson → features_of geojson = Some fs →
  forallb (λ f, negb (is_null f)) fs = true →
  ∃ out c', fetchFEMAShelters (Ok res) c = Ok (out, c').
Proof.
  intros Hd Hfs Hn%no_null_check. rewrite (fetch_features res geojson fs) by done.
  destruct (normalize_lined_up fs c Hn) as (out & c' & -> & _). by exists out, c'.
Qed.

(** X4. The call looks at a Point feature only through its coordinates
    and the eleven properties it reads: putting in its place a Point
    feature with the same coordinates and the same values for those
    properties, whatever else the two features and their property bags
    hold, changes nothing of the outcome. *)
Theorem X4_only_read_fields res geojson res' geojson' fs1 f g fs2 c :
  delivers res geojson → features_of geojson = Some (fs1 ++ f :: fs2) →
  delivers res' geojson' → features_of geojson' = Some (fs1 ++ g :: fs2) →
  geometry_type f = Some (JString "Point") →
  geometry_type g = Some (JString "Point") →
  coordinates_of f = coordinates_of g →
  (∀ k, k ∈ read_names → property f k = property g k) →
  fetchFEMAShelters (Ok res) c = fetchFEMAShelters (Ok res') c.
Proof.
  intros Hd Hfs Hd' Hfs' Hf Hg Hc Hk.
  rewrite (fetch_features res geojson (fs1 ++ f :: fs2)) by done.
  rewrite (fetch_features res' geojson' (fs1 ++ g :: fs2)) by done.
  apply normalize_replace.
  - intros ->. discriminate Hf.
  - intros ->. discriminate Hg.
  - by rewrite Hf, Hg.
  - intros c'. by apply map_cb_alike.
Qed.

Lemma X4_only_read_fields_witness :
  fetchFEMAShelters
    (Ok (Sample.response
           (Sample.payload [Sample.polygon; Sample.miami; Sample.tampa])))
    Sample.stamps =
  fetchFEMAShelters
    (Ok (Sample.response
           (Sample.payload [Sample.polygon; Sample.miami_annotated; Sample.tampa])))
    Sample.stamps.
Proof.
  apply (X4_only_read_fields
           (Sample.response
              (Sample.payload [Sample.polygon; Sample.miami; Sample.tampa]))
           (Sample.payload [Sample.polygon; Sample.miami; Sample.tampa])
           (Sample.response
              (Sample.payload [Sample.polygon; Sample.miami_annotated; Sample.tampa]))
           (Sample.payload [Sample.polygon; Sample.miami_annotated; Sample.tampa])
           [Sample.polygon] Sample.miami Sample.miami_annotated [Sample.tampa]
           Sample.stamps).
  - split; reflexivity.
  - reflexivity.
  - split; reflexivity.
  - reflexivity.
  - reflexivity.
  - reflexivity.
  - reflexivity.
  - intros k Hk. unfold read_names in Hk.
    repeat (apply elem_of_cons in Hk as [->|Hk]; [reflexivity|]).
    apply elem_of_nil in Hk. destruct Hk.
Defined.

(** X5. A call that resolves has read the clock once for each record
    and not otherwise: the record at position [k] of the output carries
    the [k]-th reading, and the clock is left advanced by the number of
    records. *)
Theorem X5_one_reading_per_record fetched c out c' :
  fetchFEMAShelters fetched c = Ok (out, c') →
  (∀ k s, out !! k = Some s → last_updated s = c k) ∧
  (∀ n, c' n = c (length out + n)).
Proof.
  intros (res & geojson & fs & _ & _ & _ & Hrun)%fetch_normalize.
  destruct (normalize_clock fs c out c' Hrun). by split.
Qed.

Lemma X5_one_reading_per_record_witness :
  ∃ out c',
    fetchFEMAShelters
      (Ok (Sample.response
             (Sample.payload [Sample.miami; Sample.three_coords; Sample.tampa])))
      Sample.stamps = Ok (out, c') ∧
    (∀ k s, out !! k = Some s → last_updated s = Sample.stamps k).
Proof.
  destruct (fetch_runs
              (Sample.response
                 (Sample.payload [Sample.miami; Sample.three_coords; Sample.tampa]))
              (Sample.payload [Sample.miami; Sample.three_coords; Sample.tampa])
              [Sample.miami; Sample.three_coords; Sample.tampa] Sample.stamps)
    as (out & c' & Hrun).
  - split; reflexivity.
  - reflexivity.
  - reflexivity.
  - exists out, c'. split; [exact Hrun|].
    exact (proj1 (X5_one_reading_per_record _ _ _ _ Hrun)).
Defined.

(** X6. Feature arrays compose: when the call on [fs1] resolves with
    records [out1] and the call on [fs2], started at the clock the first
    one leaves, resolves with [out2], the call on [fs1 ++ fs2] resolves
    with [out1 ++ out2] and leaves the clock of the second call. *)
Theorem X6_concatenation res1 geojson1 fs1 res2 geojson2 fs2 res geojson
    c out1 c1 out2 c2 :
  delivers res1 geojson1 → features_of geojson1 = Some fs1 →
  delivers res2 geojson2 → features_of geojson2 = Some fs2 →
  delivers res geojson → features_of geojson = Some (fs1 ++ fs2) →
  fetchFEMAShelters (Ok res1) c = Ok (out1, c1) →
  fetchFEMAShelters (Ok res2) c1 = Ok (out2, c2) →
  fetchFEMAShelters (Ok res) c = Ok (out1 ++ out2, c2).
Proof.
  intros Hd1 Hf1 Hd2 Hf2 Hd Hf.
  rewrite (fetch_features res1 geojson1 fs1) by done.
  rewrite (fetch_features res2 geojson2 fs2) by done.
  rewrite (fetch_features res geojson (fs1 ++ fs2)) by done.
  apply normalize_app.
Qed.

Lemma X6_concatenation_witness :
  ∃ out1 c1 out2 c2,
    fetchFEMAShelters
      (Ok (Sample.response (Sample.payload [Sample.miami; Sample.polygon])))
      Sample.stamps = Ok (out1, c1) ∧
    fetchFEMAShelters
      (Ok (Sample.response (Sample.payload [Sample.tampa]))) c1 = Ok (out2, c2) ∧
    fetchFEMAShelters
      (Ok (Sample.response
             (Sample.payload [Sample.miami; Sample.polygon; Sample.tampa])))
      Sample.stamps = Ok (out1 ++ out2, c2).
Proof.
  destruct (fetch_runs
              (Sample.response (Sample.payload [Sample.miami; Sample.polygon]))
              (Sample.payload [Sample.miami; Sample.polygon])
              [Sample.miami; Sample.polygon] Sample.stamps)
    as (out1 & c1 & Hrun1); [split; reflexivity|reflexivity|reflexivity|].
  destruct (fetch_runs
              (Sample.response (Sample.payload [Sample.tampa]))
              (Sample.payload [Sample.tampa]) [Sample.tampa] c1)
    as (out2 & c2 & Hrun2); [split; reflexivity|reflexivity|reflexivity|].
  exists out1, c1, out2, c2. split; [exact Hrun1|]. split; [exact Hrun2|].
  apply (X6_concatenation
           (Sample.response (Sample.payload [Sample.miami; Sample.polygon]))
           (Sample.payload [Sample.miami; Sample.polygon])
           [Sample.miami; Sample.polygon]
           (Sample.response (Sample.payload [Sample.tampa]))
           (Sample.payload [Sample.tampa]) [Sample.tampa]
           (Sample.response
              (Sample.payload [Sample.miami; Sample.polygon; Sample.tampa]))
           (Sample.payload [Sample.miami; Sample.polygon; Sample.tampa])
           Sample.stamps out1 c1 out2 c2).
  - split; reflexivity.
  - reflexivity.
  - split; reflexivity.
  - reflexivity.
  - split; reflexivity.
  - reflexivity.
  - exact Hrun1.
  - exact Hrun2.
Defined.

(** ** Further properties: outcomes of the call and the runner *)

Lemma settle_runs res geojson fs c :
  delivers res geojson → features_of geojson = Some fs →
  forallb (λ f, negb (is_null f)) fs = true →
  ∃ out, settle (fetchFEMAShelters (Ok res)) c = Ok out.
Proof.
  intros Hd Hfs Hn. destruct (fetch_runs res geojson fs c Hd Hfs Hn) as (out & c' & H).
  exists out. unfold settle. by rewrite H.
Qed.

Lemma rejects_settle fetched c e :
  rejects fetched e → settle (fetchFEMAShelters fetched) c = Throw e.
Proof.
  unfold settle.
  intros [e0|res Hok|res e0 Hok Hb|res geojson Hd Hf|res geojson fs Hd Hf Hn].
  - done.
  - by rewrite fetch_not_ok.
  - by rewrite (fetch_body_rejected res e0).
  - by rewrite (fetch_invalid res geojson).
  - rewrite (fetch_features res geojson fs) by done. by rewrite normalize_null.
Qed.

(** X7. The call resolves exactly when [fetch] gave a response with a
    successful status whose body parses to a document with a [features]
    array that has no [null] element; nothing else is required of the
    payload or of the features. *)
Theorem X7_resolves_exactly_when fetched c :
  (∃ out, settle (fetchFEMAShelters fetched) c = Ok out) ↔
  ∃ res geojson fs,
    fetched = Ok res ∧ delivers res geojson ∧
    features_of geojson = Some fs ∧ JNull ∉ fs.
Proof.
  split.
  - intros [out Hout].
    destruct (fetch_resolved fetched c out Hout)
      as (res & geojson & fs & ? & ? & ? & ? & _).
    by exists res, geojson, fs.
  - intros (res & geojson & fs & -> & Hd & Hfs & Hn).
    destruct (fetch_resolves res geojson fs c Hd Hfs Hn) as (out & ? & _).
    by exists out.
Qed.

Lemma X7_resolves_exactly_when_witness :
  ∃ out,
    settle (fetchFEMAShelters
              (Ok (Sample.response
                     (Sample.payload [JString "x"; JArray []; Sample.no_geometry]))))
           Sample.stamps = Ok out.
Proof.
  apply (proj2 (X7_resolves_exactly_when _ Sample.stamps)).
  exists (Sample.response
            (Sample.payload [JString "x"; JArray []; Sample.no_geometry])),
    (Sample.payload [JString "x"; JArray []; Sample.no_geometry]),
    [JString "x"; JArray []; Sample.no_geometry].
  split; [reflexivity|]. split; [split; reflexivity|]. split; [reflexivity|].
  apply no_null_check. reflexivity.
Defined.

(** X8. The call rejects with [e] exactly in one of five ways, met in
    this order: [fetch] rejected with [e]; the status is unsuccessful and
    [e] is the status error, whatever the body; the status is successful
    and reading the body as JSON rejected with [e]; the body has no
    [features] array and [e] is the format error; an element of
    [features] is [null] and [e] is the type error of reading its
    geometry. *)
Theorem X8_rejections fetched c e :
  settle (fetchFEMAShelters fetched) c = Throw e ↔ rejects fetched e.
Proof.
  split; [|apply rejects_settle]. unfold settle.
  - destruct fetched as [res|e0]; [|intros [= ->]; constructor].
    destruct (ok res) eqn:Hok;
      [|rewrite fetch_not_ok by done; intros [= <-]; by constructor].
    destruct (json_body res) as [geojson|e0] eqn:Hb;
      [|rewrite (fetch_body_rejected res e0) by done; intros [= <-];
        by constructor].
    assert (Hd : delivers res geojson) by done.
    destruct (features_of geojson) as [fs|] eqn:Hf;
      [|rewrite (fetch_invalid res geojson) by done; intros [= <-];
        by econstructor].
    rewrite (fetch_features res geojson fs) by done.
    destruct (has_null fs) as [Hn|Hn].
    + rewrite normalize_null by done. intros [= <-]. by econstructor.
    + by destruct (normalize_lined_up fs c Hn) as (out & c' & -> & _).
Qed.

Lemma X8_rejections_witness :
  settle (fetchFEMAShelters (Ok Sample.unparsable)) Sample.stamps =
    Throw (Rejection "Unexpected token < in JSON").
Proof.
  apply (proj2 (X8_rejections (Ok Sample.unparsable) Sample.stamps
                  (Rejection "Unexpected token < in JSON"))).
  apply (rejects_body Sample.unparsable); reflexivity.
Defined.

(** X9. The records of a call that resolves are, one for one and in the
    same order, built from the features of the payload that have
    geometry of type "Point" and a coordinates array of two members; so
    there are exactly as many records as such features. *)
Theorem X9_one_record_per_accepted res geojson fs c out :
  delivers res geojson → features_of geojson = Some fs →
  settle (fetchFEMAShelters (Ok res)) c = Ok out →
  Forall2 built_from (List.filter accepted fs) out ∧
  length out = length (List.filter accepted fs).
Proof.
  intros Hd Hfs Hout.
  destruct (fetch_lined_up res geojson fs c out Hd Hfs Hout) as [_ Hl].
  apply lined_up_accepted in Hl. split; [done|].
  symmetry. by eapply Forall2_length.
Qed.

Lemma X9_one_record_per_accepted_witness :
  ∃ out,
    settle (fetchFEMAShelters
              (Ok (Sample.response
                     (Sample.payload
                        [Sample.miami; Sample.polygon; Sample.three_coords;
                         Sample.tampa]))))
           Sample.stamps = Ok out ∧
    Forall2 built_from [Sample.miami; Sample.tampa] out ∧ length out = 2.
Proof.
  destruct (settle_runs
              (Sample.response
                 (Sample.payload
                    [Sample.miami; Sample.polygon; Sample.three_coords;
                     Sample.tampa]))
              (Sample.payload
                 [Sample.miami; Sample.polygon; Sample.three_coords; Sample.tampa])
              [Sample.miami; Sample.polygon; Sample.three_coords; Sample.tampa]
              Sample.stamps) as (out & Hout).
  - split; reflexivity.
  - reflexivity.
  - reflexivity.
  - exists out. split; [exact Hout|].
    apply (X9_one_record_per_accepted
             (Sample.response
                (Sample.payload
                   [Sample.miami; Sample.polygon; Sample.three_coords;
                    Sample.tampa]))
             (Sample.payload
                [Sample.miami; Sample.polygon; Sample.three_coords; Sample.tampa])
             [Sample.miami; Sample.polygon; Sample.three_coords; Sample.tampa]
             Sample.stamps out).
    + split; reflexivity.
    + reflexivity.
    + exact Hout.
Defined.

(** X10. Of a successful response the call uses nothing but the
    [features] array of the body: two successful responses whose bodies
    have the same [features] array, or both have none, lead to the same
    outcome, whatever their status texts and the other members of their
    bodies. *)
Theorem X10_only_features res1 geojson1 res2 geojson2 c :
  delivers res1 geojson1 → delivers res2 geojson2 →
  features_of geojson1 = features_of geojson2 →
  fetchFEMAShelters (Ok res1) c = fetchFEMAShelters (Ok res2) c.
Proof.
  intros Hd1 Hd2 Hf. destruct (features_of geojson2) as [fs|] eqn:Hf2.
  - rewrite (fetch_features res1 geojson1 fs) by done.
    by rewrite (fetch_features res2 geojson2 fs).
  - rewrite (fetch_invalid res1 geojson1) by done.
    by rewrite (fetch_invalid res2 geojson2).
Qed.

Lemma X10_only_features_witness :
  fetchFEMAShelters
    (Ok (Sample.response (Sample.payload [Sample.miami]))) Sample.stamps =
  fetchFEMAShelters
    (Ok {| ok := true; statusText := "";
           json_body :=
             Ok (JObject (<["type" := JString "FeatureCollection"]>
                          {["features" := JArray [Sample.miami]]})) |})
    Sample.stamps.
Proof.
  apply (X10_only_features
           (Sample.response (Sample.payload [Sample.miami]))
           (Sample.payload [Sample.miami])
           {| ok := true; statusText := "";
              json_body :=
                Ok (JObject (<["type" := JString "FeatureCollection"]>
                             {["features" := JArray [Sample.miami]]})) |}
           (JObject (<["type" := JString "FeatureCollection"]>
                     {["features" := JArray [Sample.miami]]}))
           Sample.stamps).
  - split; reflexivity.
  - split; reflexivity.
  - reflexivity.
Defined.

(** X11. Run as the main module on a successful response whose
    [features] array [fs] has no [null] element, the runner writes two
    entries with [console.log] and none with [console.error]: the text
    "Fetched n shelters", with n in decimal the number of features of
    [fs] that have Point geometry and two coordinates, and the records of
    the first three of those features, in order, or of all when there are
    fewer. *)
Theorem X11_runner_success res geojson fs c :
  delivers res geojson → features_of geojson = Some fs → JNull ∉ fs →
  ∃ shown,
    example_runner true (Ok res) c =
      [log_text ("Fetched " ++ pretty (length (List.filter accepted fs))
                 ++ " shelters");
       log_records shown] ∧
    Forall2 built_from (take 3 (List.filter accepted fs)) shown ∧
    length shown = length (List.filter accepted fs) `min` 3.
Proof.
  intros Hd Hfs Hn.
  destruct (fetch_resolves res geojson fs c Hd Hfs Hn) as (out & Hout & Hl).
  apply lined_up_accepted in Hl. pose proof (Forall2_length _ _ _ Hl) as Hlen.
  exists (take 3 out). unfold example_runner. rewrite Hout, <- Hlen.
  split; [done|]. split.
  - by apply Forall2_take.
  - rewrite length_take, Hlen. lia.
Qed.

Lemma X11_runner_success_witness :
  ∃ shown,
    example_runner true
      (Ok (Sample.response
             (Sample.payload
                [Sample.miami; Sample.polygon; Sample.tampa; Sample.nameless;
                 Sample.bare])))
      Sample.stamps =
      [log_text "Fetched 4 shelters"; log_records shown] ∧
    length shown = 3.
Proof.
  destruct (X11_runner_success
              (Sample.response
                 (Sample.payload
                    [Sample.miami; Sample.polygon; Sample.tampa; Sample.nameless;
                     Sample.bare]))
              (Sample.payload
                 [Sample.miami; Sample.polygon; Sample.tampa; Sample.nameless;
                  Sample.bare])
              [Sample.miami; Sample.polygon; Sample.tampa; Sample.nameless;
               Sample.bare] Sample.stamps) as (shown & Hrun & _ & Hlen).
  - split; reflexivity.
  - reflexivity.
  - apply no_null_check. reflexivity.
  - exists shown. split; [exact Hrun|exact Hlen].
Defined.


